(** * Euclid archive client: session coordinator, error classifier,
      archive normalizer and retrieval orchestrator

    Shallow embedding of [astroquery/esa/euclid/core.py] (class
    [EuclidClass]).  Python values that the code inspects dynamically are
    kept as a small sum type, exceptions as an error result, and the
    effects of the methods (log lines, network calls, the files of the
    output directory) as explicit state threaded through a state-and-error
    monad. *)

From Stdlib Require Import String Ascii List ZArith QArith Lia Bool DecimalString Permutation.
From Stdlib.Strings Require Import Byte.
Import ListNotations.
Set Warnings "-register-all".
Open Scope string_scope.
Open Scope list_scope.

(** ** Python values and exceptions *)

Module Py.

(** The values a status attribute can hold: [None], an [int] (what
    [requests.Response.status_code] is) or a [str]. *)
Inductive pyval : Type :=
| PyNone
| PyInt (z : Z)
| PyStr (s : string).

(** An [HTTPError] as [__handle_http_error] looks at it: [str(error)],
    the attribute [code] when the object has one, and the attribute
    [response] when the object has one, with its [status_code] when the
    response has that attribute ([Some None]: a response without it,
    which covers [response = None]). *)
Record http_error : Type := {
  err_str : string;
  err_code : option pyval;
  err_response : option (option pyval)
}.

Inductive exn : Type :=
| HTTPError (e : http_error)
| ValueError (msg : string)
| TypeError (msg : string)
| OSError (msg : string)
| OtherException (msg : string).

(** [str(exc)] for the exceptions above. *)
Definition str_exn (e : exn) : string :=
  match e with
  | HTTPError h => err_str h
  | ValueError m | TypeError m | OSError m | OtherException m => m
  end.

Definition is_HTTPError (e : exn) : bool :=
  match e with HTTPError _ => true | _ => false end.

Inductive result (A : Type) : Type :=
| Return (a : A)
| Raise (e : exn).
Arguments Return {A} a.
Arguments Raise {A} e.

Definition rbind {A B} (r : result A) (k : A -> result B) : result B :=
  match r with
  | Return a => k a
  | Raise e => Raise e
  end.

(** Python truth value: [not v] holds for [None], [0] and the empty string. *)
Definition truthy (v : pyval) : bool :=
  match v with
  | PyNone => false
  | PyInt z => negb (z =? 0)%Z
  | PyStr s => negb (s =? "")
  end.

(** [needle in hay] on two strings. *)
Fixpoint contains (needle hay : string) : bool :=
  if String.prefix needle hay then true
  else match hay with
       | EmptyString => false
       | String _ rest => contains needle rest
       end.

(** [needle in v] for a string needle: substring search when [v] is a
    string, [TypeError] when [v] is not iterable. *)
Definition py_in (needle : string) (v : pyval) : result bool :=
  match v with
  | PyStr s => Return (contains needle s)
  | PyInt _ => Raise (TypeError "argument of type 'int' is not iterable")
  | PyNone => Raise (TypeError "argument of type 'NoneType' is not iterable")
  end.

(** [str(n)] for an [int]. *)
Definition str_int (z : Z) : string := NilZero.string_of_int (Z.to_int z).

End Py.
Import Py.

Declare Scope result_scope.
Delimit Scope result_scope with result.
Notation "'ifr' c 'then' a 'else' b" :=
  (rbind c (fun t : bool => if t then a else b))
  (at level 10, c at level 100, a at level 200, b at level 200) : result_scope.

(** ** Error classifier *)

Module Classifier.

(** The status the classifier ends up matching against: [error.code],
    overridden by [error.response.status_code], replaced by [str(error)]
    when it is falsy. *)
Definition resolve_status (error : http_error) : pyval :=
  let status_code := PyNone in
  let status_code :=
    match err_code error with
    | Some c => c
    | None => status_code
    end in
  let status_code :=
    match err_response error with
    | Some (Some c) => c
    | _ => status_code
    end in
  if negb (truthy status_code) then PyStr (err_str error) else status_code.

(** [EuclidClass.__handle_http_error]. The returned [message] is kept as
    a Python value so that the callers' test [message is None] can be
    stated. *)
Definition handle_http_error (error : http_error) : result pyval :=
  let status_code := resolve_status error in
  (ifr py_in "400" status_code then
     Return (PyStr "Server unable to fulfill a bad request")
   else ifr py_in "401" status_code then
     Return (PyStr "Session expired/Unauthorized access")
   else ifr py_in "404" status_code then
     Return (PyStr "Address not found. If you are requesting a product, please check you are logged in")
   else ifr py_in "405" status_code then
     Return (PyStr "Method call is not allowed")
   else ifr py_in "407" status_code then
     Return (PyStr "Using a proxy with an authentication required")
   else ifr py_in "413" status_code then
     Return (PyStr "Request entity too large")
   else ifr py_in "414" status_code then
     Return (PyStr "Request URI too long")
   else ifr py_in "501" status_code then
     Return (PyStr "Method not implemented")
   else ifr py_in "503" status_code then
     Return (PyStr "Service is not available")
   else ifr py_in "500" status_code then
     Return (PyStr "Internal server error")
   else
     Return (PyStr ("Http error detected: " ++ err_str error)))%result.

(** The codes in the order the [elif] chain tests them, each with its
    message.  Used to state what the chain computes; the chain itself is
    [handle_http_error]. *)
Definition code_table : list (string * string) :=
  [ ("400", "Server unable to fulfill a bad request");
    ("401", "Session expired/Unauthorized access");
    ("404", "Address not found. If you are requesting a product, please check you are logged in");
    ("405", "Method call is not allowed");
    ("407", "Using a proxy with an authentication required");
    ("413", "Request entity too large");
    ("414", "Request URI too long");
    ("501", "Method not implemented");
    ("503", "Service is not available");
    ("500", "Internal server error") ].

(** First entry of a table whose code occurs in [text] as a substring. *)
Fixpoint first_match (table : list (string * string)) (text : string) : option string :=
  match table with
  | [] => None
  | (code, message) :: rest =>
      if contains code text then Some message else first_match rest text
  end.

(** An error that carries [v] as the status code of its response. *)
Definition with_status (v : pyval) : http_error :=
  {| err_str := "HTTPError"; err_code := None; err_response := Some (Some v) |}.

(** An error with only a message, as [tapconn] raises them. *)
Definition with_message (s : string) : http_error :=
  {| err_str := s; err_code := None; err_response := Some None |}.

(** What the chain returns on a status text: the message of the first
    code of [code_table] found in it, else the message of the error
    behind the fixed prefix. *)
Definition classify (text : string) (error : http_error) : string :=
  match first_match code_table text with
  | Some message => message
  | None => "Http error detected: " ++ err_str error
  end.

End Classifier.

(** ** Effects: log, network calls, sessions and the output directory *)

Module Effects.

Inductive endpoint : Type := Catalog | Data | Cutout.

Inductive level : Type := INFO | ERROR.

(** Authentication state of one endpoint session. *)
Inductive auth : Type :=
| Anonymous
| Authenticated (user : string).

(** Requests sent to the three services, in the order they are sent. *)
Inductive net_call : Type :=
| NetLogin (ep : endpoint) (user password : string)
| NetLogout (ep : endpoint)
| NetLaunchJob (async : bool) (query : string)
| NetLoadData (ep : endpoint) (params_dict : list (string * string)) (output_file : string).

(** A file or a directory of the output directory. *)
Inductive node : Type :=
| File (data : list byte)
| Dir (entries : list (string * node)).

(** Operations on the local file system, in the order they are made. *)
Inductive fs_op : Type :=
| OpIsTarfile (name : string)
| OpIsZipfile (name : string)
| OpReadMagic (name : string)
| OpExtractAll (name : string)
| OpListdir (dir : string)
| OpRename (src dst : string)
| OpWalk (dir : string).

(** The state the methods act on.  [out_dir] holds the entries of the
    output directory of the retrieval under way, in creation order; the
    rest of the file system is never read by the code modelled here. *)
Record World : Type := {
  log : list (level * string);
  net : list net_call;
  catalog_auth : auth;
  data_auth : auth;
  cutout_auth : auth;
  out_dir : list (string * node);
  fs_ops : list fs_op
}.

Definition M (A : Type) : Type := World -> result A * World.

Definition ret {A} (a : A) : M A := fun w => (Return a, w).

Definition raise {A} (e : exn) : M A := fun w => (Raise e, w).

Definition bind {A B} (c : M A) (k : A -> M B) : M B :=
  fun w =>
    match c w with
    | (Return a, w') => k a w'
    | (Raise e, w') => (Raise e, w')
    end.

(** [try: c  except <exceptions selected by handles> as e: handler e];
    an exception the clause does not select propagates. *)
Definition try_except {A} (c : M A) (handles : exn -> bool) (handler : exn -> M A) : M A :=
  fun w =>
    match c w with
    | (Return a, w') => (Return a, w')
    | (Raise e, w') => if handles e then handler e w' else (Raise e, w')
    end.

(** A pure computation that may raise, run inside [M]. *)
Definition lift {A} (r : result A) : M A := fun w => (r, w).

Definition log_msg (l : level) (s : string) : M unit :=
  fun w =>
    (Return tt,
     {| log := log w ++ [(l, s)]; net := net w;
        catalog_auth := catalog_auth w; data_auth := data_auth w;
        cutout_auth := cutout_auth w; out_dir := out_dir w; fs_ops := fs_ops w |}).

Definition log_info : string -> M unit := log_msg INFO.
Definition log_error : string -> M unit := log_msg ERROR.

Definition send (c : net_call) : M unit :=
  fun w =>
    (Return tt,
     {| log := log w; net := net w ++ [c];
        catalog_auth := catalog_auth w; data_auth := data_auth w;
        cutout_auth := cutout_auth w; out_dir := out_dir w; fs_ops := fs_ops w |}).

Definition fs_record (o : fs_op) : M unit :=
  fun w =>
    (Return tt,
     {| log := log w; net := net w;
        catalog_auth := catalog_auth w; data_auth := data_auth w;
        cutout_auth := cutout_auth w; out_dir := out_dir w; fs_ops := fs_ops w ++ [o] |}).

Definition get_out_dir : M (list (string * node)) := fun w => (Return (out_dir w), w).

Definition set_out_dir (es : list (string * node)) : M unit :=
  fun w =>
    (Return tt,
     {| log := log w; net := net w;
        catalog_auth := catalog_auth w; data_auth := data_auth w;
        cutout_auth := cutout_auth w; out_dir := es; fs_ops := fs_ops w |}).

Definition session (ep : endpoint) (w : World) : auth :=
  match ep with
  | Catalog => catalog_auth w
  | Data => data_auth w
  | Cutout => cutout_auth w
  end.

Definition set_session (ep : endpoint) (a : auth) : M unit :=
  fun w =>
    (Return tt,
     {| log := log w; net := net w;
        catalog_auth := match ep with Catalog => a | _ => catalog_auth w end;
        data_auth := match ep with Data => a | _ => data_auth w end;
        cutout_auth := match ep with Cutout => a | _ => cutout_auth w end;
        out_dir := out_dir w; fs_ops := fs_ops w |}).

(** The world after the file-system operations [os] were made, after the
    request [c] was sent, after a line was logged, and the world with the
    entries [es] in the output directory. *)
Definition recorded (os : list fs_op) (w : World) : World :=
  {| log := log w; net := net w;
     catalog_auth := catalog_auth w; data_auth := data_auth w;
     cutout_auth := cutout_auth w; out_dir := out_dir w; fs_ops := fs_ops w ++ os |}.

Definition sent (c : net_call) (w : World) : World :=
  {| log := log w; net := net w ++ [c];
     catalog_auth := catalog_auth w; data_auth := data_auth w;
     cutout_auth := cutout_auth w; out_dir := out_dir w; fs_ops := fs_ops w |}.

Definition logged (l : level) (s : string) (w : World) : World :=
  {| log := log w ++ [(l, s)]; net := net w;
     catalog_auth := catalog_auth w; data_auth := data_auth w;
     cutout_auth := cutout_auth w; out_dir := out_dir w; fs_ops := fs_ops w |}.

Definition with_out_dir (es : list (string * node)) (w : World) : World :=
  {| log := log w; net := net w;
     catalog_auth := catalog_auth w; data_auth := data_auth w;
     cutout_auth := cutout_auth w; out_dir := es; fs_ops := fs_ops w |}.

(** A client that has done nothing yet, in an output directory [es]. *)
Definition fresh (es : list (string * node)) : World :=
  {| log := []; net := []; catalog_auth := Anonymous; data_auth := Anonymous;
     cutout_auth := Anonymous; out_dir := es; fs_ops := [] |}.

End Effects.
Import Effects.

Declare Scope monad_scope.
Delimit Scope monad_scope with monad.
Notation "x <- c ;; k" := (bind c (fun x => k))
  (at level 61, c at next level, right associativity) : monad_scope.
Notation "c ;; k" := (bind c (fun _ => k))
  (at level 61, right associativity) : monad_scope.
Open Scope monad_scope.

(** ** Collaborators and configuration *)

Module Collab.

(** Arguments of [login]. *)
Record credentials : Type := {
  user : option string;
  password : option string;
  credentials_file : option string
}.

(** A job handle: the query it runs and the table [get_results] gives. *)
Record Job : Type := {
  job_query : string;
  job_results : list (list string)
}.

(** An [astropy] quantity: a value and its unit. *)
Record quantity : Type := {
  q_value : Q;
  q_unit : string
}.

(** What [commons.coord_to_radec] returns for a coordinate. *)
Record sky : Type := {
  ra_hours : Q;
  dec_deg : Q
}.

(** A member of a tar or zip archive: a regular file or a directory, at a
    path relative to the extraction directory. *)
Inductive member : Type :=
| MFile (path : list string) (data : list byte)
| MDir (path : list string).

(** Everything [core.py] takes from elsewhere: the values of [conf], the
    replies of the three services behind [TapPlus], the [astropy]
    conversions (finite floats are read as rationals, [str_float] is
    [str] on them), what [tarfile] and [zipfile] recognise in a file, and
    the clock and working directory [__set_dirs] reads. *)
Record Env : Type := {
  ROW_LIMIT : Z;
  main_table : string;
  main_table_ra : string;
  main_table_dec : string;
  MOSAIC_PRODUCTS : list string;
  BASIC_DOWNLOAD_DATA_PRODUCTS : list string;
  COMBINED_SPECTRA_PRODUCTS : list string;
  MER_SEGMENTATION_MAP_PRODUCTS : list string;
  OBSERVATION_STACK_PRODUCTS : list string;
  RAW_FRAME_PRODUCTS : list string;
  CALIBRATED_FRAME_PRODUCTS : list string;
  FRAME_CATALOG_PRODUCTS : list string;
  SIR_SCIENCE_FRAME_PRODUCTS : list string;
  resolve_credentials : credentials -> string * string;
  login_reply : endpoint -> string -> string -> option http_error;
  logout_reply : endpoint -> option http_error;
  launch_job_reply : bool -> string -> result Job;
  load_data_reply : endpoint -> list (string * string) -> result (list byte);
  parse_coordinates : string -> result sky;
  Quantity : string -> result quantity;
  angle_to_deg : quantity -> result Q;
  str_float : Q -> string;
  tar_members : list byte -> option (list member);
  zip_members : list byte -> option (list member);
  getcwd : string;
  now_stamp : string;
  makedirs_error : string -> option string
}.


End Collab.
Import Collab.

(** ** Session coordinator *)

Module Session.

Section WithEnv.
Variable env : Env.

(** Modelled from the spec: [TapPlus.login] and [TapPlus.logout], which
    are not part of the sources at hand.  A login sends the credentials to
    the endpoint and leaves its session authenticated, or raises
    [HTTPError] and leaves it anonymous; a logout leaves it anonymous, or
    raises [HTTPError] and leaves it as it was. *)
Definition tap_login (ep : endpoint) (u p : string) : M unit :=
  send (NetLogin ep u p) ;;
  match login_reply env ep u p with
  | None => set_session ep (Authenticated u)
  | Some err => set_session ep Anonymous ;; raise (HTTPError err)
  end.

Definition tap_logout (ep : endpoint) : M unit :=
  send (NetLogout ep) ;;
  match logout_reply env ep with
  | None => set_session ep Anonymous
  | Some err => raise (HTTPError err)
  end.

(** [EuclidClass.login].  The boolean of the first [try] tells whether
    the method goes on after it ([false]: the [return] of its handler). *)
Definition login (cred : credentials) : M unit :=
  let (tap_user, tap_password) := resolve_credentials env cred in
  go_on <- try_except
             (log_info "Login to Euclid TAP server" ;;
              tap_login Catalog tap_user tap_password ;;
              ret true)
             is_HTTPError
             (fun err =>
                log_error ("Error logging in TAP server: " ++ str_exn err) ;;
                ret false) ;;
  if negb go_on then ret tt
  else
    try_except
      (log_info "Login to Euclid data service" ;;
       tap_login Data tap_user tap_password ;;
       log_info "Login to Euclid cutout service" ;;
       tap_login Cutout tap_user tap_password)
      is_HTTPError
      (fun err =>
         log_error ("Error logging in data or cutout services: " ++ str_exn err) ;;
         log_error "Logging out from TAP server" ;;
         tap_logout Catalog).

(** [EuclidClass.logout]. *)
Definition logout : M unit :=
  go_on <- try_except
             (tap_logout Catalog ;; ret true)
             is_HTTPError
             (fun err =>
                log_error ("Error logging out TAP server: " ++ str_exn err) ;;
                log_error "Error logging out TAP server" ;;
                ret false) ;;
  if negb go_on then ret tt
  else
    log_info "Euclid TAP server logout OK" ;;
    try_except
      (tap_logout Data ;; log_info "Euclid data server logout OK")
      is_HTTPError
      (fun err =>
         log_error ("Error logging out data server: " ++ str_exn err) ;;
         log_error "Error logging out data server") ;;
    try_except
      (tap_logout Cutout ;; log_info "Euclid cutout server logout OK")
      is_HTTPError
      (fun err => log_error ("Error logging out cutout server: " ++ str_exn err)).

(** The sibling whose login is refused first, in the order the method
    tries them. *)
Definition first_failing_sibling (u p : string) : option endpoint :=
  match login_reply env Data u p with
  | Some _ => Some Data
  | None =>
      match login_reply env Cutout u p with
      | Some _ => Some Cutout
      | None => None
      end
  end.

End WithEnv.

(** The logins sent up to and including the one to the sibling [ep]. *)
Definition login_attempts (u p : string) (ep : endpoint) : list net_call :=
  NetLogin Catalog u p :: NetLogin Data u p ::
  match ep with
  | Cutout => [NetLogin Cutout u p]
  | _ => []
  end.

End Session.

(** ** Paths ([os.sep], [os.path] on a POSIX system) *)

Module Paths.

Definition sep : string := "/".

Definition is_sep (c : ascii) : bool := Ascii.eqb c "/".

(** [(p[:i], p[i:])] with [i = p.rfind('/') + 1]. *)
Fixpoint split_last (p : string) : string * string :=
  match p with
  | EmptyString => (EmptyString, EmptyString)
  | String c rest =>
      let (head, tail) := split_last rest in
      if negb (head =? "") then (String c head, tail)
      else if is_sep c then (String c EmptyString, rest)
      else (EmptyString, String c rest)
  end.

Fixpoint all_sep (s : string) : bool :=
  match s with
  | EmptyString => true
  | String c rest => is_sep c && all_sep rest
  end.

(** [s.rstrip('/')]. *)
Fixpoint rstrip_sep (s : string) : string :=
  match s with
  | EmptyString => EmptyString
  | String c rest =>
      let r := rstrip_sep rest in
      if (r =? "") && is_sep c then EmptyString else String c r
  end.

Definition basename (p : string) : string := snd (split_last p).

Definition dirname (p : string) : string :=
  let head := fst (split_last p) in
  if negb (head =? "") && negb (all_sep head) then rstrip_sep head else head.

Fixpoint ends_with_sep (s : string) : bool :=
  match s with
  | EmptyString => false
  | String c EmptyString => is_sep c
  | String _ rest => ends_with_sep rest
  end.

(** [os.path.join(a, b)]. *)
Definition join (a b : string) : string :=
  if String.prefix sep b then b
  else if (a =? "") || ends_with_sep a then a ++ b
  else a ++ sep ++ b.


End Paths.
Import Paths.

Arguments basename : simpl never.
Arguments dirname : simpl never.
Arguments join : simpl never.

(** ** Archive normalizer *)

Module Normalizer.

(** *** The output directory as a tree *)

Fixpoint get_entry (n : string) (es : list (string * node)) : option node :=
  match es with
  | [] => None
  | (k, v) :: rest => if k =? n then Some v else get_entry n rest
  end.

(** Writes entry [n]: in place when the name exists, else as a new last
    entry. *)
Fixpoint set_entry (n : string) (v : node) (es : list (string * node)) : list (string * node) :=
  match es with
  | [] => [(n, v)]
  | (k, x) :: rest => if k =? n then (n, v) :: rest else (k, x) :: set_entry n v rest
  end.

Fixpoint remove_entry (n : string) (es : list (string * node)) : list (string * node) :=
  match es with
  | [] => []
  | (k, x) :: rest => if k =? n then remove_entry n rest else (k, x) :: remove_entry n rest
  end.

Definition subdir_entries (n : string) (es : list (string * node)) : list (string * node) :=
  match get_entry n es with
  | Some (Dir l) => l
  | _ => []
  end.

(** Creates [v] at the relative path [p], with the directories on the
    way; a directory that is already there is kept with its entries. *)
Fixpoint put (p : list string) (v : node) (es : list (string * node)) : list (string * node) :=
  match p with
  | [] => es
  | d :: p' =>
      match p' with
      | [] =>
          match v, get_entry d es with
          | Dir _, Some (Dir _) => es
          | _, _ => set_entry d v es
          end
      | _ :: _ => set_entry d (Dir (put p' v (subdir_entries d es))) es
      end
  end.

Definition extract_member (es : list (string * node)) (m : member) : list (string * node) :=
  match m with
  | MFile p data => put p (File data) es
  | MDir p => put p (Dir []) es
  end.

(** [extractall]: the members in archive order. *)
Definition extract_members (ms : list member) (es : list (string * node)) : list (string * node) :=
  fold_left extract_member ms es.

Definition is_file (n : node) : bool :=
  match n with File _ => true | Dir _ => false end.

Definition filenames (es : list (string * node)) : list string :=
  map fst (filter (fun e => is_file (snd e)) es).

Definition dirnames (es : list (string * node)) : list string :=
  map fst (filter (fun e => negb (is_file (snd e))) es).

(** [os.walk], top-down: the triples [(root, dirs, files)]. *)
Fixpoint walk (r : string) (n : node) {struct n} : list (string * list string * list string) :=
  match n with
  | File _ => []
  | Dir es =>
      (r, dirnames es, filenames es) ::
      (fix walk_children (l : list (string * node)) : list (string * list string * list string) :=
         match l with
         | [] => []
         | (name, child) :: l' => walk (join r name) child ++ walk_children l'
         end) es
  end.

(** [EuclidClass.is_gz_file] on the bytes of a file: the first two are
    [1f 8b]. *)
Definition gz_magic (data : list byte) : bool :=
  match data with
  | b0 :: b1 :: _ => Byte.eqb b0 x1f && Byte.eqb b1 x8b
  | _ => false
  end.

Definition nonempty {A} (l : list A) : bool :=
  match l with [] => false | _ :: _ => true end.

Section WithEnv.
Variable env : Env.

(** The methods are always called with [output_dir] the directory of
    [output_file_full_path]; a path handed to [os] or to an archive
    library is resolved to the entry of [out_dir] with its base name. *)
Definition read_file (path : string) : M (list byte) :=
  es <- get_out_dir ;;
  match get_entry (basename path) es with
  | Some (File data) => ret data
  | _ => raise (OSError ("No such file: " ++ path))
  end.

Definition is_tarfile (path : string) : M bool :=
  fs_record (OpIsTarfile path) ;;
  data <- read_file path ;;
  ret (match tar_members env data with Some _ => true | None => false end).

Definition is_zipfile (path : string) : M bool :=
  fs_record (OpIsZipfile path) ;;
  data <- read_file path ;;
  ret (match zip_members env data with Some _ => true | None => false end).

Definition is_gz_file (filepath : string) : M bool :=
  fs_record (OpReadMagic filepath) ;;
  data <- read_file filepath ;;
  ret (gz_magic data).

(** [with <lib>.open(path) as ref: ref.extractall(output_dir)]. *)
Definition extractall (members : list byte -> option (list member)) (path : string) : M unit :=
  fs_record (OpExtractAll path) ;;
  data <- read_file path ;;
  es <- get_out_dir ;;
  match members data with
  | Some ms => set_out_dir (extract_members ms es)
  | None => raise (OtherException ("not an archive: " ++ path))
  end.

(** [os.listdir]; the empty path names no directory. *)
Definition os_listdir (dir : string) : M (list string) :=
  fs_record (OpListdir dir) ;;
  if dir =? "" then raise (OSError "No such file or directory: ''")
  else es <- get_out_dir ;; ret (map fst es).

Definition os_rename (src dst : string) : M unit :=
  fs_record (OpRename src dst) ;;
  es <- get_out_dir ;;
  match get_entry (basename src) es with
  | None => raise (OSError ("No such file or directory: " ++ src))
  | Some v =>
      if basename src =? basename dst then ret tt
      else set_out_dir (set_entry (basename dst) v (remove_entry (basename src) es))
  end.

Definition os_walk (dir : string) : M (list (string * list string * list string)) :=
  fs_record (OpWalk dir) ;;
  if dir =? "" then ret []
  else es <- get_out_dir ;; ret (walk dir (Dir es)).

(** The loop body of the [else] branch of [__check_file_number]. *)
Definition collect (output_file_name : string) (files : list string)
    (triple : string * list string * list string) : list string :=
  let '(r, d, f) := triple in
  fold_left
    (fun files file =>
       if negb (file =? output_file_name) then files ++ [join r file] else files)
    f files.

(** [EuclidClass.__check_file_number]; [files] is the list it appends
    to, the result is that list after the call. *)
Definition check_file_number (output_dir output_file_name output_file_full_path : string)
    (files : list string) : M (list string) :=
  names <- os_listdir output_dir ;;
  let num_files_in_dir := length names in
  if (num_files_in_dir =? 1)%nat then
    let output_f := output_file_name in
    let output_full_path := (output_dir ++ sep ++ output_f)%string in
    os_rename output_file_full_path output_full_path ;;
    ret (files ++ [output_full_path])
  else
    triples <- os_walk output_dir ;;
    ret (fold_left (collect output_file_name) triples files).

(** [EuclidClass.__extract_file]: the list [files] after the call, and
    the value returned ([None] when the method falls off its end). *)
Definition extract_file (output_file_full_path output_dir : string)
    (files : list string) : M (list string * option (list string)) :=
  t <- is_tarfile output_file_full_path ;;
  if t then
    extractall (tar_members env) output_file_full_path ;;
    ret (files, None)
  else
    z <- is_zipfile output_file_full_path ;;
    if z then
      extractall (zip_members env) output_file_full_path ;;
      ret (files, None)
    else
      g <- is_gz_file output_file_full_path ;;
      if negb g then
        let files := files ++ [output_file_full_path] in
        ret (files, Some files)
      else ret (files, None).


(** The end of [get_observation_products], [get_product], [get_cutout]
    and [get_spectrum], the same in the four: what is made of the
    downloaded file. *)
Definition normalize (output_file_full_path output_dir : string) : M (list string) :=
  let files := [] in
  r <- extract_file output_file_full_path output_dir files ;;
  let files := fst r in
  if nonempty files then ret files
  else
    check_file_number output_dir (basename output_file_full_path)
      output_file_full_path files.

End WithEnv.



Definition file_entry (f : string * list byte) : string * node := (fst f, File (snd f)).









(** The triples [os.walk] gives below the root: one per entry that is a
    directory, each with its own subtree. *)
Definition walk_children (r : string) (l : list (string * node))
    : list (string * list string * list string) :=
  flat_map (fun e => walk (join r (fst e)) (snd e)) l.

End Normalizer.

(** ** Jobs *)

Module Jobs.

Import Classifier.

Definition nl : string := String (ascii_of_nat 10) EmptyString.

(** [str(v)]. *)
Definition py_str (v : pyval) : string :=
  match v with
  | PyNone => "None"
  | PyInt z => str_int z
  | PyStr s => s
  end.

Section WithEnv.
Variable env : Env.

(** Modelled from the spec: [TapPlus.launch_job] and
    [TapPlus.launch_job_async] (the Job Executor), which are not part of
    the sources at hand: the query is sent and a job handle comes back,
    or an error is raised. *)
Definition tap_launch_job (async : bool) (query : string) : M Job :=
  send (NetLaunchJob async query) ;;
  lift (launch_job_reply env async query).

(** [EuclidClass.launch_job]: the job, or [None] after an error was
    logged. *)
Definition launch_job (query : string) : M (option Job) :=
  try_except
    (job <- tap_launch_job false query ;; ret (Some job))
    (fun _ => true)
    (fun exx =>
       match exx with
       | HTTPError err =>
           message <- lift (handle_http_error err) ;;
           match message with
           | PyNone => log_error ("Query failed: " ++ query ++ ", " ++ str_exn exx)
           | _ => log_error ("Query failed: " ++ query ++ ": " ++ nl ++ " " ++ py_str message)
           end ;;
           ret None
       | _ =>
           log_error ("Query failed: " ++ query ++ ", " ++ str_exn exx) ;;
           ret None
       end).

End WithEnv.

End Jobs.
Import Jobs.

(** ** Cone search *)

Module Query.

(** What a caller can pass as a coordinate: a string, a coordinate
    object, or something else. *)
Inductive coord_input : Type :=
| CoordStr (s : string)
| CoordSky (c : sky)
| CoordOther.

(** What a caller can pass as a radius: a string, a quantity, or
    something else. *)
Inductive quantity_input : Type :=
| QuantStr (s : string)
| QuantObj (q : quantity)
| QuantOther.

(** The [columns] argument: a tuple (the default is [()]) or a list of
    column names. *)
Inductive pyseq : Type :=
| PyTuple (items : list string)
| PyList (items : list string).

Definition items_of (c : pyseq) : list string :=
  match c with PyTuple l | PyList l => l end.

(** [repr] of a string without quotes, backslashes or control
    characters. *)
Definition repr_str (s : string) : string := "'" ++ s ++ "'".

(** [str(c)] for a tuple or a list of such strings. *)
Definition str_seq (c : pyseq) : string :=
  match c with
  | PyTuple [] => "()"
  | PyTuple [x] => "(" ++ repr_str x ++ ",)"
  | PyTuple l => "(" ++ String.concat ", " (map repr_str l) ++ ")"
  | PyList l => "[" ++ String.concat ", " (map repr_str l) ++ "]"
  end.

(** [str(x)] for an optional string ([None] prints as its name). *)
Definition str_opt (x : option string) : string :=
  match x with
  | Some s => s
  | None => "None"
  end.

(** The query text of [cone_search] and of [__cone_search] (the same
    literal in both), with the fields [format] fills in. *)
Definition cone_query (row_limit columns ra_column dec_column ra dec radius table_name : string)
    : string :=
  nl ++ "                SELECT" ++
  nl ++ "                  " ++ row_limit ++
  nl ++ "                  " ++ columns ++ "," ++
  nl ++ "                  DISTANCE(" ++
  nl ++ "                    POINT('ICRS', " ++ ra_column ++ ", " ++ dec_column ++ ")," ++
  nl ++ "                    POINT('ICRS', " ++ ra ++ ", " ++ dec ++ ")" ++
  nl ++ "                  ) AS dist" ++
  nl ++ "                FROM" ++
  nl ++ "                  " ++ table_name ++
  nl ++ "                WHERE" ++
  nl ++ "                  1 = CONTAINS(" ++
  nl ++ "                    POINT('ICRS', " ++ ra_column ++ ", " ++ dec_column ++ ")," ++
  nl ++ "                    CIRCLE('ICRS', " ++ ra ++ ", " ++ dec ++ ", " ++ radius ++ ")" ++
  nl ++ "                  )" ++
  nl ++ "                ORDER BY" ++
  nl ++ "                  dist ASC" ++
  nl ++ "                ".

Record cone_args : Type := {
  coordinate : coord_input;
  radius : option quantity_input;
  table_name : option string;
  ra_column_name : option string;
  dec_column_name : option string;
  async_job : bool;
  columns : pyseq
}.

Section WithEnv.
Variable env : Env.

(** [EuclidClass.__get_quantity_input]. *)
Definition get_quantity_input (value : option quantity_input) (msg : string) : result quantity :=
  match value with
  | None => Raise (ValueError ("Missing required argument: '" ++ msg ++ "'"))
  | Some QuantOther => Raise (ValueError (msg ++ " must be either a string or astropy.coordinates"))
  | Some (QuantStr s) => Quantity env s
  | Some (QuantObj q) => Return q
  end.

(** [EuclidClass.__get_coord_input]. *)
Definition get_coord_input (value : coord_input) (msg : string) : result sky :=
  match value with
  | CoordOther => Raise (ValueError (msg ++ " must be either a string or astropy.coordinates"))
  | CoordStr s => parse_coordinates env s
  | CoordSky c => Return c
  end.

(** [Angle(__get_quantity_input(radius, "radius")).to_value(u.deg)] when
    [radius] is not [None], else [None]. *)
Definition radius_degrees (radius : option quantity_input) : result (option Q) :=
  match radius with
  | None => Return None
  | Some _ =>
      rbind (get_quantity_input radius "radius") (fun q =>
      rbind (angle_to_deg env q) (fun d => Return (Some d)))
  end.

Definition str_radius (radius_deg : option Q) : string :=
  match radius_deg with
  | Some d => str_float env d
  | None => "None"
  end.

(** The [row_limit] field: ["TOP {0}".format(self.ROW_LIMIT)] when
    [self.ROW_LIMIT > 0], else the empty string. *)
Definition row_limit_text : string :=
  if (ROW_LIMIT env >? 0)%Z then "TOP " ++ str_int (ROW_LIMIT env) else "".

(** The table and its two columns after the default is applied. *)
Definition resolve_table (a : cone_args) : string * string * string :=
  match table_name a with
  | None => (main_table env, main_table_ra env, main_table_dec env)
  | Some t => (t, str_opt (ra_column_name a), str_opt (dec_column_name a))
  end.

(** The query [EuclidClass.cone_search] builds.  The conversion of
    [columns] sits inside a string literal in that method and is not
    executed: [format] receives the argument as it came. *)
Definition cone_search_query (a : cone_args) : result string :=
  rbind (get_coord_input (coordinate a) "coordinate") (fun coord =>
  let ra := (ra_hours coord * 15)%Q in
  let dec := dec_deg coord in
  rbind (radius_degrees (radius a)) (fun radius_deg =>
  let '(table_name, ra_column, dec_column) := resolve_table a in
  Return (cone_query row_limit_text (str_seq (columns a)) ra_column dec_column
            (str_float env ra) (str_float env dec) (str_radius radius_deg) table_name))).

(** [EuclidClass.cone_search]. *)
Definition cone_search (a : cone_args) : M Job :=
  query <- lift (cone_search_query a) ;;
  tap_launch_job env (async_job a) query.

(** The query [EuclidClass.__cone_search] builds. *)
Definition __cone_search_query (a : cone_args) : result string :=
  let '(table_name, ra_column, dec_column) := resolve_table a in
  rbind (get_coord_input (coordinate a) "coordinate") (fun coord =>
  let ra := (ra_hours coord * 15)%Q in
  let dec := dec_deg coord in
  rbind (radius_degrees (radius a)) (fun radius_deg =>
  let columns :=
    if Normalizer.nonempty (items_of (columns a))
    then String.concat "," (items_of (columns a))
    else "*" in
  Return (cone_query row_limit_text columns ra_column dec_column
            (str_float env ra) (str_float env dec) (str_radius radius_deg) table_name))).

(** [EuclidClass.__cone_search]. *)
Definition __cone_search (a : cone_args) : M Job :=
  query <- lift (__cone_search_query a) ;;
  tap_launch_job env (async_job a) query.

End WithEnv.

End Query.

(** ** Product listing *)

Module Listing.


(** The query texts of [__get_tile_catalogue_list] ([tile_query_*]) and
    of [get_product_list] ([obs_query_*]), one per product family. *)













Section WithEnv.
Variable env : Env.






End WithEnv.


End Listing.

(** ** Retrieval: cutouts *)

Module Retrieval.

Import Classifier Query Normalizer.

Definition ERROR_MSG_REQUESTED_GENERIC : string := "Missing required argument".
Definition ERROR_MSG_REQUESTED_RADIUS : string :=
  "Radius cannot be greater than 30 arcminutes".

Record cutout_args : Type := {
  file_path : option string;
  instrument : option string;
  id : option string;
  cutout_coordinate : option coord_input;
  cutout_radius : option quantity_input;
  output_file : option string
}.

(** [radius_deg > 0.5]. *)
Definition gt_half (radius_deg : Q) : bool := negb (Qle_bool radius_deg (1 # 2)).

Section WithEnv.
Variable env : Env.

(** [EuclidClass.__set_dirs]: the path of the file to write and its
    directory. *)
Definition set_dirs (output_file : option string) (observation_id : string)
    : M (string * string) :=
  let '(output_file_full_path, output_dir) :=
    match output_file with
    | None =>
        let output_dir := (getcwd env ++ sep ++ "temp_" ++ now_stamp env)%string in
        ((output_dir ++ sep ++ observation_id)%string, output_dir)
    | Some f => (f, dirname f)
    end in
  (if negb (output_dir =? "") then
     match makedirs_error env output_dir with
     | Some strerror =>
         raise (OSError ("Creation of the directory " ++ output_dir
                           ++ " failed: " ++ strerror))
     | None => ret tt
     end
   else ret tt) ;;
  ret (output_file_full_path, output_dir).

(** Modelled from the spec: [TapPlus.load_data] (the data and cutout
    transfer collaborator), which is not part of the sources at hand: the
    request is sent, and the reply is written to the destination path or a
    transport error is raised. *)
Definition load_data (ep : endpoint) (params_dict : list (string * string))
    (output_file : string) : M unit :=
  send (NetLoadData ep params_dict output_file) ;;
  data <- lift (load_data_reply env ep params_dict) ;;
  es <- get_out_dir ;;
  set_out_dir (set_entry (basename output_file) (File data) es).

(** [EuclidClass.get_cutout]: the list of local paths, or [None] when the
    transfer failed. *)
Definition get_cutout (a : cutout_args) : M (option (list string)) :=
  match file_path a, instrument a, id a, cutout_coordinate a, cutout_radius a with
  | Some file_path, Some instrument, Some id, Some coordinate, Some radius =>
      q <- lift (get_quantity_input env (Some radius) "radius") ;;
      radius_deg <- lift (angle_to_deg env q) ;;
      if gt_half radius_deg then raise (ValueError ERROR_MSG_REQUESTED_RADIUS)
      else
        coord <- lift (get_coord_input env coordinate "coordinate") ;;
        let ra := (ra_hours coord * 15)%Q in
        let dec := dec_deg coord in
        let pos := ("CIRCLE," ++ str_float env ra ++ "," ++ str_float env dec ++ ","
                      ++ str_float env radius_deg)%string in
        let params_dict :=
          [("TAPCLIENT", "ASTROQUERY"); ("FILEPATH", file_path);
           ("COLLECTION", instrument); ("OBSID", id); ("POS", pos)] in
        dirs <- set_dirs (output_file a) "temp" ;;
        let '(output_file_full_path, output_dir) := dirs in
        loaded <- try_except
                    (load_data Cutout params_dict output_file_full_path ;; ret true)
                    (fun _ => true)
                    (fun exx =>
                       match exx with
                       | HTTPError err =>
                           message <- lift (handle_http_error err) ;;
                           log_error ("Cannot retrieve the product for file_path " ++ file_path
                                        ++ ", obsId " ++ id ++ ", and collection " ++ instrument
                                        ++ ": " ++ nl ++ " " ++ str_exn exx) ;;
                           match message with
                           | PyNone => ret tt
                           | _ => log_error ("Error message from server: " ++ py_str message)
                           end ;;
                           ret false
                       | _ =>
                           log_error ("Cannot retrieve the product for file_path " ++ file_path
                                        ++ ", obsId " ++ id ++ ", and collection " ++ instrument
                                        ++ ": " ++ nl ++ " " ++ str_exn exx) ;;
                           ret false
                       end) ;;
        if negb loaded then ret None
        else
          files <- normalize env output_file_full_path output_dir ;;
          ret (Some files)
  | _, _, _, _, _ => raise (ValueError ERROR_MSG_REQUESTED_GENERIC)
  end.

End WithEnv.

End Retrieval.

(** ** A concrete configuration and scripted services, for running the
       model on examples *)

Module Demo.

Import Query.

Definition bytes (s : string) : list byte := list_byte_of_string s.

Fixpoint bytes_eqb (a b : list byte) : bool :=
  match a, b with
  | [], [] => true
  | x :: a', y :: b' => Byte.eqb x y && bytes_eqb a' b'
  | _, _ => false
  end.

(** An archive library that recognises the files listed in a table. *)
Fixpoint lookup_archive (table : list (list byte * list member)) (data : list byte)
    : option (list member) :=
  match table with
  | [] => None
  | (d, ms) :: rest => if bytes_eqb d data then Some ms else lookup_archive rest data
  end.

(** [str] on the floats the examples use. *)
Definition demo_str_float (q : Q) : string :=
  if Qeq_bool q 10 then "10.0"
  else if Qeq_bool q 20 then "20.0"
  else if Qeq_bool q (1 # 20) then "0.05"
  else if Qeq_bool q 1 then "1.0"
  else "0.0".

(** Degrees of a quantity in [deg] or [arcmin]. *)
Definition demo_angle_to_deg (q : quantity) : result Q :=
  if q_unit q =? "deg" then Return (q_value q)
  else if q_unit q =? "arcmin" then Return (q_value q / 60)%Q
  else Raise (OtherException "not an angle").

Definition refused (reason : string) : http_error :=
  {| err_str := reason; err_code := None; err_response := Some None |}.

Definition demo_job (query : string) : Job :=
  {| job_query := query; job_results := [["row"]] |}.

(** A deployment with row limit [row_limit], services that accept the
    logins [login_ok] selects and every logout, an executor that replies
    [jobs], a transfer that replies [payload], and archive libraries that
    read the tables [tars] and [zips]. *)
Definition demo_env (row_limit : Z) (login_ok : endpoint -> bool)
    (jobs : string -> result Job) (payload : result (list byte))
    (tars zips : list (list byte * list member)) : Env :=
  {| ROW_LIMIT := row_limit;
     main_table := "catalogue.mer_catalogue";
     main_table_ra := "right_ascension";
     main_table_dec := "declination";
     MOSAIC_PRODUCTS := ["DpdMerBksMosaic"];
     BASIC_DOWNLOAD_DATA_PRODUCTS := ["dpdMerFinalCatalog"];
     COMBINED_SPECTRA_PRODUCTS := ["DpdSirCombinedSpectra"];
     MER_SEGMENTATION_MAP_PRODUCTS := ["DpdMerSegmentationMap"];
     OBSERVATION_STACK_PRODUCTS := ["DpdVisStackedFrame"; "DpdNirStackedFrame"];
     RAW_FRAME_PRODUCTS := ["dpdVisRawFrame"; "dpdNispRawFrame"];
     CALIBRATED_FRAME_PRODUCTS := ["DpdVisCalibratedQuadFrame"];
     FRAME_CATALOG_PRODUCTS := ["DpdVisStackedFrameCatalog"];
     SIR_SCIENCE_FRAME_PRODUCTS := ["dpdSirScienceFrame"];
     resolve_credentials :=
       (fun c => (match user c with Some u => u | None => "anonymous" end,
                  match password c with Some p => p | None => "" end));
     login_reply := (fun ep _ _ => if login_ok ep then None else Some (refused "Login error: Unauthorized"));
     logout_reply := (fun _ => None);
     launch_job_reply := (fun _ query => jobs query);
     load_data_reply := (fun _ _ => payload);
     parse_coordinates := (fun _ => Raise (ValueError "unparseable coordinate"));
     Quantity := (fun _ => Raise (ValueError "unparseable quantity"));
     angle_to_deg := demo_angle_to_deg;
     str_float := demo_str_float;
     tar_members := lookup_archive tars;
     zip_members := lookup_archive zips;
     getcwd := "/home/user";
     now_stamp := "20240101_120000";
     makedirs_error := (fun _ => None) |}.

Definition all_ok (ep : endpoint) : bool := true.

(** The plain deployment: row limit 5, nothing refused, no archive. *)
Definition answered (query : string) : result Job := Return (demo_job query).

Definition env0 : Env := demo_env 5 all_ok answered (Return (bytes "SIMPLE  =  T")) [] [].

(** A response of the [requests] library: its status code is an [int]. *)
Definition server_error_500 : http_error :=
  {| err_str := "500 Server Error: Internal Server Error";
     err_code := None;
     err_response := Some (Some (PyInt 500)) |}.

(** The plain deployment with an executor that fails every query with
    [err]. *)
Definition env_failing_jobs (err : http_error) : Env :=
  demo_env 5 all_ok (fun _ => Raise (HTTPError err)) (Return (bytes "SIMPLE  =  T")) [] [].

(** Services that accept the catalog login and refuse the data login. *)
Definition env_data_refused : Env :=
  demo_env 5 (fun ep => match ep with Catalog => true | _ => false end)
    answered (Return (bytes "SIMPLE  =  T")) [] [].

(** Services that refuse the cutout login only. *)
Definition env_cutout_refused : Env :=
  demo_env 5 (fun ep => match ep with Cutout => false | _ => true end)
    answered (Return (bytes "SIMPLE  =  T")) [] [].




(** A tar archive with a member file at its top and one in a
    directory. *)
Definition tar_nested : list byte := bytes "tar:nested".

Definition env_nested : Env :=
  demo_env 5 all_ok answered (Return tar_nested)
    [ (tar_nested, [MFile ["a.fits"] (bytes "A"); MFile ["sub"; "b.fits"] (bytes "B")]) ]
    [].


Definition alice : credentials :=
  {| user := Some "alice"; password := Some "secret"; credentials_file := None |}.

Definition deg (v : Q) : quantity_input := QuantObj {| q_value := v; q_unit := "deg" |}.

Definition at_10_20 : coord_input := CoordSky {| ra_hours := 10 / 15; dec_deg := 20 |}.

(** The cone search of the end-to-end example: position (10.0, 20.0),
    radius 0.05 deg, no table and no columns given. *)
Definition cone_example : cone_args :=
  {| coordinate := at_10_20;
     radius := Some (deg (1 # 20));
     table_name := None;
     ra_column_name := None;
     dec_column_name := None;
     async_job := false;
     columns := PyTuple [] |}.

(** A cutout request around the same position with the given radius. *)
Definition cutout_example (radius : Q) : Retrieval.cutout_args :=
  {| Retrieval.file_path := Some "/data/EUC_VIS.fits";
     Retrieval.instrument := Some "VIS";
     Retrieval.id := Some "2704";
     Retrieval.cutout_coordinate := Some at_10_20;
     Retrieval.cutout_radius := Some (deg radius);
     Retrieval.output_file := None |}.

End Demo.

(** * Properties *)

(** Runs the operations of the monad, leaving strings and lists as
    they are written. *)
Ltac step_m :=
  cbv beta iota delta
    [try_except bind lift send set_session log_info log_error log_msg
     fs_record get_out_dir set_out_dir ret raise is_HTTPError negb str_exn
     log net catalog_auth data_auth cutout_auth out_dir fs_ops].

(** ** Strings *)

Module StringFacts.

Local Open Scope string_scope.

Lemma prefix_app (n b : string) : String.prefix n (n ++ b) = true.
Proof.
  induction n as [|c n IH]; simpl.
  - destruct b; reflexivity.
  - destruct (ascii_dec c c) as [_|ne]; [exact IH | congruence].
Qed.

Lemma prefix_inv (n h : string) :
  String.prefix n h = true -> exists b, h = n ++ b.
Proof.
  revert h; induction n as [|c n IH]; intros h H.
  - exists h; reflexivity.
  - destruct h as [|d h]; simpl in H; [discriminate|].
    destruct (ascii_dec c d) as [->|]; [|discriminate].
    destruct (IH h H) as [b ->]. exists b; reflexivity.
Qed.

Lemma append_assoc (a b c : string) : (a ++ b) ++ c = a ++ (b ++ c).
Proof. induction a as [|x a IH]; simpl; [reflexivity | now rewrite IH]. Qed.

Lemma contains_unfold (needle hay : string) :
  contains needle hay =
  if String.prefix needle hay then true
  else match hay with
       | EmptyString => false
       | String _ rest => contains needle rest
       end.
Proof. destruct hay; reflexivity. Qed.

(** [contains] is substring containment: [needle in hay] holds exactly
    when [hay] is some text, then [needle], then some text. *)
Lemma contains_spec (needle hay : string) :
  contains needle hay = true <-> exists a b, hay = a ++ needle ++ b.
Proof.
  split.
  - induction hay as [|c hay IH]; rewrite contains_unfold.
    + destruct (String.prefix needle "") eqn:P; intros H; [|discriminate H].
      destruct (prefix_inv _ _ P) as [b Hb]. exists "", b; exact Hb.
    + destruct (String.prefix needle (String c hay)) eqn:P; intros H.
      * destruct (prefix_inv _ _ P) as [b Hb]. exists "", b; exact Hb.
      * destruct (IH H) as (a & b & ->). exists (String c a), b; reflexivity.
  - intros (a & b & ->). induction a as [|c a IH]; rewrite contains_unfold.
    + change ("" ++ needle ++ b) with (needle ++ b). rewrite prefix_app; reflexivity.
    + change (String c a ++ needle ++ b) with (String c (a ++ needle ++ b)).
      destruct (String.prefix needle (String c (a ++ needle ++ b))); [reflexivity|].
      exact IH.
Qed.

End StringFacts.

(** ** Error classifier *)

Module ClassifierFacts.

Import Classifier StringFacts.

Lemma handle_http_error_text (error : http_error) (text : string) :
  resolve_status error = PyStr text ->
  handle_http_error error = Return (PyStr (classify text error)).
Proof.
  intros H. unfold handle_http_error, classify, code_table. rewrite H. simpl.
  repeat (match goal with
          | |- context [contains ?c text] => destruct (contains c text); simpl; try reflexivity
          end).
Qed.

(** The status the chain matches is a string exactly when no truthy
    non-string status was found on the error. *)
Lemma resolve_status_cases (error : http_error) :
  (exists text, resolve_status error = PyStr text) \/
  (exists z, z <> 0%Z /\ resolve_status error = PyInt z).
Proof.
  unfold resolve_status.
  destruct (err_response error) as [[[ | z | s]|]|];
    destruct (err_code error) as [[ | z' | s']|]; simpl;
    repeat match goal with
    | |- context [(?z =? 0)%Z] => destruct (Z.eqb_spec z 0); simpl
    | |- context [(?s =? "")%string] => destruct (String.eqb_spec s ""); simpl
    end; eauto.
Qed.

(** The classifier never hands [None] to its caller: it returns a
    string or raises. *)
Lemma handle_http_error_not_None (error : http_error) :
  handle_http_error error <> Return PyNone.
Proof.
  destruct (resolve_status_cases error) as [[text H] | (z & _ & H)].
  - rewrite (handle_http_error_text _ _ H). discriminate.
  - unfold handle_http_error. rewrite H. simpl. discriminate.
Qed.

(** A text with "5001" in it has "500" in it. *)
Lemma contains_500_of_5001 (before after : string) :
  contains "500" (before ++ "5001" ++ after)%string = true.
Proof.
  apply contains_spec. exists before, ("1" ++ after)%string. reflexivity.
Qed.

(** Such a text, when none of the nine codes tested before 500 occurs in
    it, is classified as an internal server error. *)
Lemma classify_5001 (before after : string) (error : http_error) :
  first_match (removelast code_table) (before ++ "5001" ++ after)%string = None ->
  classify (before ++ "5001" ++ after)%string error = "Internal server error"%string.
Proof.
  intros H. unfold classify, code_table in *. cbn [removelast] in H. cbn [first_match] in *.
  repeat match type of H with
         | (if ?c then _ else _) = None => destruct c; [discriminate H|]
         end.
  rewrite contains_500_of_5001. reflexivity.
Qed.

(** With an integer status the first membership test raises. *)
Lemma handle_http_error_int (error : http_error) (z : Z) :
  resolve_status error = PyInt z ->
  handle_http_error error = Raise (TypeError "argument of type 'int' is not iterable").
Proof. intros H. unfold handle_http_error. rewrite H. reflexivity. Qed.

End ClassifierFacts.

(** ** Error classifier: the claims *)

Module ClassifierClaims.

Import Classifier ClassifierFacts Demo.

(** C2, as amended.  The classifier matches by substring containment
    against the status text, in the order 400, 401, 404, 405, 407, 413,
    414, 501, 503, 500, the first code found deciding: for every error
    whose status resolves to a text, the message returned is the one of the
    first code of that order occurring anywhere in the text, else the
    "unknown" message that carries [str(error)].  So the text "500" gives
    the internal-server-error message, the text "501" the not-implemented
    one (501 is tested before 500), an error with no status and message
    "timeout" the unknown message with "timeout", and the text "5001",
    which contains "500", the internal-server-error message. *)
Theorem handle_http_error_first_substring (error : http_error) (text : string) :
  resolve_status error = PyStr text ->
  handle_http_error error = Return (PyStr (classify text error))
  /\ handle_http_error (with_status (PyStr "500")) = Return (PyStr "Internal server error")
  /\ handle_http_error (with_status (PyStr "501")) = Return (PyStr "Method not implemented")
  /\ handle_http_error (with_message "timeout") = Return (PyStr "Http error detected: timeout")
  /\ handle_http_error (with_status (PyStr "5001")) = Return (PyStr "Internal server error").
Proof.
  intros H. split; [exact (handle_http_error_text _ _ H)|].
  repeat split; reflexivity.
Qed.

Lemma handle_http_error_first_substring_witness :
  resolve_status (with_message "Error 404: no such table") = PyStr "Error 404: no such table"
  /\ handle_http_error (with_message "Error 404: no such table")
     = Return (PyStr "Address not found. If you are requesting a product, please check you are logged in").
Proof.
  split; [reflexivity|].
  exact (proj1 (handle_http_error_first_substring
                  (with_message "Error 404: no such table")
                  "Error 404: no such table" eq_refl)).
Defined.

(** C2, as stated, fails: the status text "5001" is not the code 500,
    and it is classified as the fixed code 500. *)
Lemma handle_http_error_5001_is_500 :
  handle_http_error (with_status (PyStr "5001")) = Return (PyStr "Internal server error")
  /\ handle_http_error (with_status (PyStr "5001")) = handle_http_error (with_status (PyStr "500")).
Proof. split; reflexivity. Qed.

(** C10 at the failing input: an [HTTPError] whose response carries the
    integer status 500.  The classifier does not return a message, it
    raises [TypeError] at its first membership test; in [launch_job] the
    exception leaves the handler, past both logging branches. *)
Theorem handle_http_error_int_status_raises :
  handle_http_error server_error_500
  = Raise (TypeError "argument of type 'int' is not iterable")
  /\ fst (Jobs.launch_job (env_failing_jobs server_error_500) "SELECT 1" (fresh []))
     = Raise (TypeError "argument of type 'int' is not iterable")
  /\ log (snd (Jobs.launch_job (env_failing_jobs server_error_500) "SELECT 1" (fresh []))) = [].
Proof. repeat split; reflexivity. Qed.

End ClassifierClaims.

(** ** Session coordinator *)

Module SessionFacts.

Import Session Demo.

(** What [login] does when the catalog accepts and the data service
    refuses. *)
Lemma login_data_refused (env : Env) (cred : credentials) (w : World)
    (u p : string) (err : http_error) :
  resolve_credentials env cred = (u, p) ->
  login_reply env Catalog u p = None ->
  login_reply env Data u p = Some err ->
  logout_reply env Catalog = None ->
  login env cred w =
  (Return tt,
   {| log := log w ++ [(INFO, "Login to Euclid TAP server");
                       (INFO, "Login to Euclid data service");
                       (ERROR, ("Error logging in data or cutout services: " ++ err_str err)%string);
                       (ERROR, "Logging out from TAP server")];
      net := net w ++ [NetLogin Catalog u p; NetLogin Data u p; NetLogout Catalog];
      catalog_auth := Anonymous;
      data_auth := Anonymous;
      cutout_auth := cutout_auth w;
      out_dir := out_dir w;
      fs_ops := fs_ops w |}).
Proof.
  intros Hc Hcat Hdata Hout.
  unfold login, tap_login, tap_logout.
  rewrite Hc, Hcat, Hdata, Hout. step_m.
  repeat rewrite <- app_assoc. reflexivity.
Qed.

(** What [login] does when only the cutout service refuses. *)
Lemma login_cutout_refused (env : Env) (cred : credentials) (w : World)
    (u p : string) (err : http_error) :
  resolve_credentials env cred = (u, p) ->
  login_reply env Catalog u p = None ->
  login_reply env Data u p = None ->
  login_reply env Cutout u p = Some err ->
  logout_reply env Catalog = None ->
  login env cred w =
  (Return tt,
   {| log := log w ++ [(INFO, "Login to Euclid TAP server");
                       (INFO, "Login to Euclid data service");
                       (INFO, "Login to Euclid cutout service");
                       (ERROR, ("Error logging in data or cutout services: " ++ err_str err)%string);
                       (ERROR, "Logging out from TAP server")];
      net := net w ++ [NetLogin Catalog u p; NetLogin Data u p; NetLogin Cutout u p;
                       NetLogout Catalog];
      catalog_auth := Anonymous;
      data_auth := Authenticated u;
      cutout_auth := Anonymous;
      out_dir := out_dir w;
      fs_ops := fs_ops w |}).
Proof.
  intros Hc Hcat Hdata Hcut Hout.
  unfold login, tap_login, tap_logout.
  rewrite Hc, Hcat, Hdata, Hcut, Hout. step_m.
  repeat rewrite <- app_assoc. reflexivity.
Qed.

(** A refused catalog login: nothing is sent to the siblings. *)
Lemma login_catalog_refused (env : Env) (cred : credentials) (w : World)
    (u p : string) (err : http_error) :
  resolve_credentials env cred = (u, p) ->
  login_reply env Catalog u p = Some err ->
  fst (login env cred w) = Return tt
  /\ net (snd (login env cred w)) = net w ++ [NetLogin Catalog u p]
  /\ data_auth (snd (login env cred w)) = data_auth w
  /\ cutout_auth (snd (login env cred w)) = cutout_auth w.
Proof.
  intros Hc Hcat.
  unfold login, tap_login, tap_logout.
  rewrite Hc, Hcat. step_m. repeat split; reflexivity.
Qed.

(** C1, as amended.  When the catalog login is accepted, a sibling login
    (data, or cutout after data) is refused with an HTTP error and the
    catalog accepts the logout, [login] sends a logout to the catalog
    endpoint as its last request and returns normally: the error is
    logged, no exception reaches the caller.  Afterwards the catalog
    session and the session of the refused sibling are unauthenticated;
    when the refused sibling is the data service, the cutout login is not
    attempted and the cutout session is as it was. *)
Theorem login_sibling_refused_rolls_back (env : Env) (cred : credentials) (w : World)
    (u p : string) (ep : endpoint) :
  resolve_credentials env cred = (u, p) ->
  login_reply env Catalog u p = None ->
  first_failing_sibling env u p = Some ep ->
  logout_reply env Catalog = None ->
  fst (login env cred w) = Return tt
  /\ net (snd (login env cred w)) = net w ++ login_attempts u p ep ++ [NetLogout Catalog]
  /\ catalog_auth (snd (login env cred w)) = Anonymous
  /\ session ep (snd (login env cred w)) = Anonymous
  /\ cutout_auth (snd (login env cred w))
     = match ep with Data => cutout_auth w | _ => Anonymous end.
Proof.
  intros Hc Hcat Hsib Hout. unfold first_failing_sibling in Hsib.
  destruct (login_reply env Data u p) as [err|] eqn:Hdata.
  - injection Hsib as <-.
    rewrite (login_data_refused env cred w u p err Hc Hcat Hdata Hout).
    repeat split; reflexivity.
  - destruct (login_reply env Cutout u p) as [err|] eqn:Hcut; [|discriminate].
    injection Hsib as <-.
    rewrite (login_cutout_refused env cred w u p err Hc Hcat Hdata Hcut Hout).
    repeat split; reflexivity.
Qed.

Lemma login_sibling_refused_rolls_back_witness :
  resolve_credentials env_data_refused alice = ("alice", "secret")%string
  /\ login_reply env_data_refused Catalog "alice" "secret" = None
  /\ first_failing_sibling env_data_refused "alice" "secret" = Some Data
  /\ logout_reply env_data_refused Catalog = None
  /\ net (snd (login env_data_refused alice (fresh [])))
     = [NetLogin Catalog "alice" "secret"; NetLogin Data "alice" "secret"; NetLogout Catalog].
Proof.
  repeat (split; [reflexivity|]).
  exact (proj1 (proj2 (login_sibling_refused_rolls_back env_data_refused alice (fresh [])
                         "alice" "secret" Data eq_refl eq_refl eq_refl eq_refl))).
Defined.

(** C1, as stated, fails: with the catalog login accepted and the data
    login refused, [login] does not fail; it returns normally after the
    rollback. *)
Lemma login_data_refused_returns :
  login_reply env_data_refused Catalog "alice" "secret" = None
  /\ login_reply env_data_refused Data "alice" "secret" <> None
  /\ fst (login env_data_refused alice (fresh [])) = Return tt.
Proof. repeat split; try reflexivity. discriminate. Qed.

(** With the cutout login refused after the data login was accepted, the
    rollback reaches the catalog session only. *)
Example login_cutout_refused_sessions :
  let w := snd (login env_cutout_refused alice (fresh [])) in
  (catalog_auth w, data_auth w, cutout_auth w)
  = (Anonymous, Authenticated "alice", Anonymous).
Proof. reflexivity. Qed.

End SessionFacts.

(** ** Paths *)

Module PathFacts.

Local Open Scope string_scope.







End PathFacts.

(** ** Archive normalizer *)

Module NormalizerFacts.

Import Normalizer PathFacts.

(** *** The tree of the output directory *)







(** *** The loop of the [else] branch *)





(** *** Running the operations *)


Lemma bind_Return {A B} (c : M A) (k : A -> M B) (w w' : World) (a : A) :
  c w = (Return a, w') -> bind c k w = k a w'.
Proof. intros H. unfold bind. rewrite H. reflexivity. Qed.

Lemma bind_Raise {A B} (c : M A) (k : A -> M B) (w w' : World) (e : exn) :
  c w = (Raise e, w') -> bind c k w = (Raise e, w').
Proof. intros H. unfold bind. rewrite H. reflexivity. Qed.

Lemma fs_record_run (o : fs_op) (w : World) :
  fs_record o w = (Return tt, recorded [o] w).
Proof. reflexivity. Qed.

Lemma get_out_dir_run (w : World) : get_out_dir w = (Return (out_dir w), w).
Proof. reflexivity. Qed.

Lemma set_out_dir_run (es : list (string * node)) (w : World) :
  set_out_dir es w = (Return tt, with_out_dir es w).
Proof. reflexivity. Qed.

Lemma read_file_found (path : string) (w : World) (data : list byte) :
  get_entry (basename path) (out_dir w) = Some (File data) ->
  read_file path w = (Return data, w).
Proof.
  intros H. unfold read_file.
  erewrite bind_Return by apply get_out_dir_run. rewrite H. reflexivity.
Qed.

Lemma is_tarfile_run (env : Env) (path : string) (w : World) (data : list byte) :
  get_entry (basename path) (out_dir w) = Some (File data) ->
  is_tarfile env path w
  = (Return (match tar_members env data with Some _ => true | None => false end),
     recorded [OpIsTarfile path] w).
Proof.
  intros H. unfold is_tarfile.
  erewrite bind_Return by apply fs_record_run.
  erewrite bind_Return by (apply read_file_found; exact H).
  reflexivity.
Qed.

Lemma is_zipfile_run (env : Env) (path : string) (w : World) (data : list byte) :
  get_entry (basename path) (out_dir w) = Some (File data) ->
  is_zipfile env path w
  = (Return (match zip_members env data with Some _ => true | None => false end),
     recorded [OpIsZipfile path] w).
Proof.
  intros H. unfold is_zipfile.
  erewrite bind_Return by apply fs_record_run.
  erewrite bind_Return by (apply read_file_found; exact H).
  reflexivity.
Qed.

Lemma is_gz_file_run (path : string) (w : World) (data : list byte) :
  get_entry (basename path) (out_dir w) = Some (File data) ->
  is_gz_file path w = (Return (gz_magic data), recorded [OpReadMagic path] w).
Proof.
  intros H. unfold is_gz_file.
  erewrite bind_Return by apply fs_record_run.
  erewrite bind_Return by (apply read_file_found; exact H).
  reflexivity.
Qed.



(** [__extract_file] on a file that is no archive: the magic number
    decides whether the path is appended. *)
Lemma extract_file_no_archive (env : Env) (path dir : string) (files : list string)
    (w : World) (data : list byte) :
  get_entry (basename path) (out_dir w) = Some (File data) ->
  tar_members env data = None ->
  zip_members env data = None ->
  extract_file env path dir files w
  = (Return (if gz_magic data then (files, None)
             else (files ++ [path], Some (files ++ [path]))),
     recorded [OpIsTarfile path; OpIsZipfile path; OpReadMagic path] w).
Proof.
  intros H Ht Hz. unfold extract_file.
  erewrite bind_Return by (apply is_tarfile_run; exact H). rewrite Ht.
  erewrite bind_Return by (apply is_zipfile_run; exact H). rewrite Hz.
  erewrite bind_Return by (apply is_gz_file_run; exact H).
  destruct (gz_magic data); unfold ret, recorded; cbn;
    repeat rewrite <- app_assoc; reflexivity.
Qed.






(** *** What is made of an archive *)





End NormalizerFacts.

(** ** Archives with directories *)

Module TreeFacts.

Import Normalizer PathFacts NormalizerFacts.









(** *** Extraction and the files of the tree *)























End TreeFacts.

(** ** Archive normalizer: the claims *)

Module NormalizerClaims.

Import Normalizer NormalizerFacts TreeFacts Demo.



(** On the archive with a member in a directory, that member is returned
    under the path of its directory. *)
Example normalize_nested_archive :
  fst (normalize env_nested "/d/out.tar" "/d" (fresh [("out.tar", File tar_nested)]))%string
  = Return ["/d/a.fits"; "/d/sub/b.fits"]%string.
Proof. reflexivity. Qed.








(** C9.  A downloaded file that is not a tar archive, not a zip archive
    and does not start with the gzip magic number: normalization returns
    the one-element list with its path, after reading the file three times
    and nothing else; the output directory is as it was. *)
Theorem normalize_plain_file (env : Env) (path dir : string) (w : World) (data : list byte) :
  get_entry (basename path) (out_dir w) = Some (File data) ->
  tar_members env data = None ->
  zip_members env data = None ->
  gz_magic data = false ->
  normalize env path dir w
  = (Return [path], recorded [OpIsTarfile path; OpIsZipfile path; OpReadMagic path] w)
  /\ out_dir (snd (normalize env path dir w)) = out_dir w.
Proof.
  intros H Ht Hz Hg.
  assert (E : normalize env path dir w
              = (Return [path],
                 recorded [OpIsTarfile path; OpIsZipfile path; OpReadMagic path] w)).
  { unfold normalize.
    erewrite bind_Return by (apply (extract_file_no_archive env path dir [] w data H Ht Hz)).
    rewrite Hg. reflexivity. }
  rewrite E. split; reflexivity.
Qed.

Lemma normalize_plain_file_witness :
  get_entry (basename "/d/out.fits")
    (out_dir (fresh [("other.txt", File []); ("out.fits", File (bytes "SIMPLE"))]))%string
  = Some (File (bytes "SIMPLE"))
  /\ fst (normalize env0 "/d/out.fits" "/d"
            (fresh [("other.txt", File []); ("out.fits", File (bytes "SIMPLE"))]))%string
     = Return ["/d/out.fits"]%string.
Proof.
  split; [reflexivity|].
  rewrite (proj1 (normalize_plain_file env0 "/d/out.fits" "/d"
                    (fresh [("other.txt", File []); ("out.fits", File (bytes "SIMPLE"))])%string
                    (bytes "SIMPLE") eq_refl eq_refl eq_refl eq_refl)).
  reflexivity.
Defined.

End NormalizerClaims.

(** ** Jobs *)

Module JobsFacts.

Import Classifier ClassifierFacts NormalizerFacts Jobs.

Lemma send_run (c : net_call) (w : World) : send c w = (Return tt, sent c w).
Proof. reflexivity. Qed.

Lemma log_error_run (s : string) (w : World) :
  log_error s w = (Return tt, logged ERROR s w).
Proof. reflexivity. Qed.

Lemma try_except_Return {A} (c : M A) (h : exn -> bool) (k : exn -> M A)
    (w w' : World) (a : A) :
  c w = (Return a, w') -> try_except c h k w = (Return a, w').
Proof. intros H. unfold try_except. rewrite H. reflexivity. Qed.

Lemma try_except_handled {A} (c : M A) (h : exn -> bool) (k : exn -> M A)
    (w w' : World) (e : exn) :
  c w = (Raise e, w') -> h e = true -> try_except c h k w = k e w'.
Proof. intros H He. unfold try_except. rewrite H, He. reflexivity. Qed.

Lemma tap_launch_job_run (env : Env) (async : bool) (query : string) (w : World) :
  tap_launch_job env async query w
  = (launch_job_reply env async query, sent (NetLaunchJob async query) w).
Proof.
  unfold tap_launch_job. erewrite bind_Return by apply send_run. reflexivity.
Qed.

(** [launch_job] on a transport error whose status is a text: the line
    logged is the one with the classifier's message, not the fallback
    behind [message is None]. *)
Lemma launch_job_http_error_text (env : Env) (query : string) (w : World)
    (err : http_error) (text : string) :
  launch_job_reply env false query = Raise (HTTPError err) ->
  resolve_status err = PyStr text ->
  launch_job env query w
  = (Return None,
     logged ERROR ("Query failed: " ++ query ++ ": " ++ nl ++ " " ++ classify text err)%string
       (sent (NetLaunchJob false query) w)).
Proof.
  intros Hr Hs. unfold launch_job.
  erewrite try_except_handled; [| |reflexivity].
  2:{ erewrite bind_Raise; [reflexivity|]. rewrite tap_launch_job_run, Hr. reflexivity. }
  cbv beta iota. unfold lift at 1.
  erewrite bind_Return by (rewrite (handle_http_error_text err text Hs); reflexivity).
  cbv beta iota. erewrite bind_Return by apply log_error_run. reflexivity.
Qed.

(** [launch_job] on a transport error whose status is an integer: the
    classifier's [TypeError] leaves the method. *)
Lemma launch_job_http_error_int (env : Env) (query : string) (w : World)
    (err : http_error) (z : Z) :
  launch_job_reply env false query = Raise (HTTPError err) ->
  resolve_status err = PyInt z ->
  launch_job env query w
  = (Raise (TypeError "argument of type 'int' is not iterable"),
     sent (NetLaunchJob false query) w).
Proof.
  intros Hr Hs. unfold launch_job.
  erewrite try_except_handled; [| |reflexivity].
  2:{ erewrite bind_Raise; [reflexivity|]. rewrite tap_launch_job_run, Hr. reflexivity. }
  cbv beta iota. unfold lift at 1.
  erewrite bind_Raise by (rewrite (handle_http_error_int err z Hs); reflexivity).
  reflexivity.
Qed.

End JobsFacts.

(** ** Cone search *)

Module QueryFacts.

Import Query NormalizerFacts JobsFacts Demo.

(** The row restriction: ["TOP n"] for a positive limit, nothing
    otherwise. *)
Lemma row_limit_text_positive (env : Env) :
  (0 < ROW_LIMIT env)%Z ->
  row_limit_text env = ("TOP " ++ str_int (ROW_LIMIT env))%string.
Proof.
  intros H. unfold row_limit_text.
  destruct (Z.gtb_spec (ROW_LIMIT env) 0); [reflexivity | lia].
Qed.

Lemma row_limit_text_unrestricted (env : Env) :
  (ROW_LIMIT env <= 0)%Z -> row_limit_text env = ""%string.
Proof.
  intros H. unfold row_limit_text.
  destruct (Z.gtb_spec (ROW_LIMIT env) 0); [lia | reflexivity].
Qed.

(** The query of [__cone_search]: circle of the given radius around the
    given position, the distance column, ascending order (all in the text
    of [cone_query]), the row restriction, and ["*"] or the comma list for
    the columns. *)
Lemma private_cone_search_query_shape (env : Env) (a : cone_args) (coord : sky)
    (radius_deg : option Q) :
  get_coord_input env (coordinate a) "coordinate" = Return coord ->
  radius_degrees env (radius a) = Return radius_deg ->
  __cone_search_query env a
  = Return (cone_query (row_limit_text env)
              (match items_of (columns a) with
               | [] => "*"%string
               | _ :: _ => String.concat "," (items_of (columns a))
               end)
              (snd (fst (resolve_table env a))) (snd (resolve_table env a))
              (str_float env (ra_hours coord * 15)) (str_float env (dec_deg coord))
              (str_radius env radius_deg) (fst (fst (resolve_table env a)))).
Proof.
  intros Hc Hr. unfold __cone_search_query.
  destruct (resolve_table env a) as [[t ra] de]. rewrite Hc. cbn [rbind]. rewrite Hr.
  cbn [rbind fst snd]. destruct (items_of (columns a)); reflexivity.
Qed.

(** The query of [cone_search]: the same, except that the columns are
    the printed form of the argument. *)
Lemma cone_search_query_shape (env : Env) (a : cone_args) (coord : sky)
    (radius_deg : option Q) :
  get_coord_input env (coordinate a) "coordinate" = Return coord ->
  radius_degrees env (radius a) = Return radius_deg ->
  cone_search_query env a
  = Return (cone_query (row_limit_text env) (str_seq (columns a))
              (snd (fst (resolve_table env a))) (snd (resolve_table env a))
              (str_float env (ra_hours coord * 15)) (str_float env (dec_deg coord))
              (str_radius env radius_deg) (fst (fst (resolve_table env a)))).
Proof.
  intros Hc Hr. unfold cone_search_query. rewrite Hc. cbn [rbind]. rewrite Hr.
  cbn [rbind]. destruct (resolve_table env a) as [[t ra] de]. reflexivity.
Qed.

(** Whatever tuple or list is passed as [columns], [cone_search] does
    not print ["*"] for it. *)
Lemma str_seq_not_star (c : pyseq) : str_seq c <> "*"%string.
Proof.
  destruct c as [[|x [|y l]] | l]; cbn; discriminate.
Qed.

(** C6 at the failing input: the cone search of the example (position
    (10.0, 20.0), radius 0.05 deg, row limit 5, no columns given).  The
    query [cone_search] sends has the circle, the distance column, the
    ascending order and the ["TOP 5"] restriction, and projects ["()"],
    the printed empty tuple, where [__cone_search] on the same arguments
    projects ["*"]. *)
Theorem cone_search_default_columns :
  cone_search_query env0 cone_example
  = Return (cone_query "TOP 5" "()" "right_ascension" "declination"
              "10.0" "20.0" "0.05" "catalogue.mer_catalogue")
  /\ net (snd (cone_search env0 cone_example (fresh [])))
     = [NetLaunchJob false
          (cone_query "TOP 5" "()" "right_ascension" "declination"
             "10.0" "20.0" "0.05" "catalogue.mer_catalogue")]
  /\ __cone_search_query env0 cone_example
     = Return (cone_query "TOP 5" "*" "right_ascension" "declination"
                 "10.0" "20.0" "0.05" "catalogue.mer_catalogue").
Proof. repeat split; reflexivity. Qed.

End QueryFacts.

(** ** Product listing *)

Module ListingFacts.

Import Listing NormalizerFacts JobsFacts Demo.




End ListingFacts.

(** ** Cutouts *)

Module RetrievalFacts.

Import Query Retrieval NormalizerFacts JobsFacts Demo.

Lemma gt_half_true (d : Q) : (1 # 2 < d)%Q -> gt_half d = true.
Proof.
  intros H. unfold gt_half. destruct (Qle_bool d (1 # 2)) eqn:E; [|reflexivity].
  apply Qle_bool_iff in E. exfalso. exact (Qlt_not_le _ _ H E).
Qed.

(** C8.  A cutout request that gives its mandatory arguments, with a
    radius that converts to more than 0.5 degrees, raises [ValueError]
    with the radius message and leaves the world as it was: nothing is
    sent to the cutout endpoint, nothing is written. *)
Theorem get_cutout_radius_too_large (env : Env) (a : cutout_args) (w : World)
    (fp ins i : string) (c : coord_input) (r : quantity_input) (q : quantity) (d : Q) :
  file_path a = Some fp ->
  instrument a = Some ins ->
  id a = Some i ->
  cutout_coordinate a = Some c ->
  cutout_radius a = Some r ->
  get_quantity_input env (Some r) "radius" = Return q ->
  angle_to_deg env q = Return d ->
  (1 # 2 < d)%Q ->
  get_cutout env a w = (Raise (ValueError ERROR_MSG_REQUESTED_RADIUS), w).
Proof.
  intros Hf Hi Hid Hc Hr Hq Hd Hlt. unfold get_cutout.
  rewrite Hf, Hi, Hid, Hc, Hr.
  erewrite bind_Return by (unfold lift; rewrite Hq; reflexivity).
  erewrite bind_Return by (unfold lift; rewrite Hd; reflexivity).
  rewrite (gt_half_true d Hlt). reflexivity.
Qed.

Lemma get_cutout_radius_too_large_witness :
  (1 # 2 < 1)%Q
  /\ get_cutout env0 (cutout_example 1) (fresh [])
     = (Raise (ValueError "Radius cannot be greater than 30 arcminutes"), fresh []).
Proof.
  split; [reflexivity|].
  exact (get_cutout_radius_too_large env0 (cutout_example 1) (fresh [])
           "/data/EUC_VIS.fits" "VIS" "2704" at_10_20 (deg 1)
           {| q_value := 1; q_unit := "deg" |} 1
           eq_refl eq_refl eq_refl eq_refl eq_refl eq_refl eq_refl eq_refl).
Defined.

(** With a radius within the limit the same request reaches the cutout
    endpoint. *)
Example get_cutout_small_radius_contacts_endpoint :
  net (snd (get_cutout env0 (cutout_example (1 # 20)) (fresh [])))
  = [NetLoadData Cutout
       [("TAPCLIENT", "ASTROQUERY"); ("FILEPATH", "/data/EUC_VIS.fits");
        ("COLLECTION", "VIS"); ("OBSID", "2704"); ("POS", "CIRCLE,10.0,20.0,0.05")]
       "/home/user/temp_20240101_120000/temp"]%string.
Proof. reflexivity. Qed.

End RetrievalFacts.
